(** * supabase-orm: the query builder, the filter helpers and the transaction stub

    A shallow embedding of the Go package [supabaseorm]:
    - [utils.go]: [FormatFilterValue], [BuildFilterCondition];
    - the query builder ([QueryBuilder], its chainable setters, the terminal
      operations and [execute]);
    - [transaction.go]: [Commit], [Rollback].

    Go strings are [string], Go [int] values are [Z], [url.Values] and the
    header maps are [gmap]s keyed by strings, slices are lists. *)

From Stdlib Require Import ZArith String Ascii List.
From Stdlib Require Import DecimalString DecimalZ.
From stdpp Require Import gmap strings list.

Local Open Scope Z_scope.

(** ** What the Go standard library and the network contribute

    The package calls into [strconv], [fmt], [encoding/json] and the resty
    HTTP client.  Integer and boolean formatting are written out below; the
    parts whose code is outside the package are fields of this class. *)

Class GoStd := {
  (** a [float64], as [reflect.Value.Float] returns it *)
  Float : Type;
  (** [strconv.FormatFloat(x, 'f', -1, 64)] *)
  strconv_FormatFloat_f64 : Float -> string;
  (** what [fmt] prints for a float under [%v]; [true] for a [float32] *)
  fmt_v_float : bool -> Float -> string;
  (** values of every kind the switch in [FormatFilterValue] does not list
      (pointers, maps, structs, ...) *)
  Other : Type;
  (** what [fmt] prints for such a value under [%v] *)
  fmt_v_other : Other -> string;
  (** [strings.TrimSpace] *)
  strings_TrimSpace : string -> string;
  (** the content of a container a caller hands to a terminal operation *)
  Obj : Type;
  (** the syntax check [json.Unmarshal] runs first: [Some msg] on bad JSON *)
  json_checkValid : string -> option string;
  (** decoding valid JSON text into a container: the error, if any, and the
      container afterwards *)
  json_decode : string -> Obj -> option string * Obj
}.

(** ** strconv and strings *)

Definition strconv_FormatBool (b : bool) : string :=
  if b then "true" else "false".

(** [strconv.FormatInt(n, 10)] and [strconv.FormatUint(n, 10)]: the decimal
    digits, most significant first, with a leading [-] below zero. *)
Definition strconv_FormatInt (n : Z) : string :=
  NilZero.string_of_int (Z.to_int n).

Definition strconv_FormatUint (n : Z) : string :=
  NilZero.string_of_int (Z.to_int n).

(** Reading base-10 text back, used to say what "base-10 text" means. *)
Definition parse_decimal (s : string) : option Z :=
  Z.of_int <$> NilZero.int_of_string s.

(** [strings.Join(elems, sep)] *)
Fixpoint strings_Join (elems : list string) (sep : string) : string :=
  match elems with
  | [] => ""
  | x :: rest =>
      match rest with
      | [] => x
      | _ :: _ => x +:+ sep +:+ strings_Join rest sep
      end
  end.

(** The one-character string holding a double quote (code 34). *)
Definition dquote : string := String "034"%char EmptyString.

(** ** Dynamic values ([interface{}]) by [reflect.Kind] *)

Inductive int_kind := KInt | KInt8 | KInt16 | KInt32 | KInt64.
Inductive uint_kind := KUint | KUint8 | KUint16 | KUint32 | KUint64.
Inductive float_kind := KFloat32 | KFloat64.

#[warnings="-register-all"]
Inductive any `{GoStd} :=
  | VNil                                 (* the nil interface *)
  | VString (s : string)
  | VBool (b : bool)
  | VInt (k : int_kind) (n : Z)          (* [v.Int()] is [n] *)
  | VUint (k : uint_kind) (n : Z)        (* [v.Uint()] is [n] *)
  | VFloat (k : float_kind) (x : Float)  (* [v.Float()] is [x] *)
  | VStrings (l : list string)  (* slice or array whose element kind is String *)
  | VSlice (l : list any)       (* slice or array of any other element kind *)
  | VOther (o : Other).          (* pointers, maps, structs, ... *)

Section Utils.
Context `{GoStd}.

(** [fmt.Sprintf("\"%s\"", s)] *)
Definition quote (s : string) : string := dquote +:+ s +:+ dquote.

(** [fmt.Sprintf("{%s}", s)] *)
Definition braces (s : string) : string := "{" +:+ s +:+ "}".

(** utils.go, [FormatFilterValue]. *)
Fixpoint FormatFilterValue (value : any) : string :=
  match value with
  | VNil => "<nil>"
  | VString s => quote s
  | VBool b => strconv_FormatBool b
  | VInt _ n => strconv_FormatInt n
  | VUint _ n => strconv_FormatUint n
  | VFloat _ x => strconv_FormatFloat_f64 x
  | VStrings l => braces (strings_Join (map quote l) ",")
  | VSlice l => braces (strings_Join (map FormatFilterValue l) ",")
  | VOther o => fmt_v_other o
  end.

(** One [case] of a Go string switch. *)
Definition case_of (operator : string) (labels : list string) : bool :=
  bool_decide (operator ∈ labels).

(** utils.go, [BuildFilterCondition]. *)
Definition BuildFilterCondition (column operator : string) (value : any)
  : string :=
  let formattedValue := FormatFilterValue value in
  if case_of operator ["eq"; "="] then
    column +:+ "=eq." +:+ formattedValue
  else if case_of operator ["neq"; "!="; "<>"] then
    column +:+ "=neq." +:+ formattedValue
  else if case_of operator ["gt"; ">"] then
    column +:+ "=gt." +:+ formattedValue
  else if case_of operator ["gte"; ">="] then
    column +:+ "=gte." +:+ formattedValue
  else if case_of operator ["lt"; "<"] then
    column +:+ "=lt." +:+ formattedValue
  else if case_of operator ["lte"; "<="] then
    column +:+ "=lte." +:+ formattedValue
  else if case_of operator ["like"] then
    column +:+ "=like." +:+ formattedValue
  else if case_of operator ["ilike"] then
    column +:+ "=ilike." +:+ formattedValue
  else if case_of operator ["in"] then
    column +:+ "=in." +:+ formattedValue
  else if case_of operator ["is"] then
    column +:+ "=is." +:+ formattedValue
  else
    column +:+ "=" +:+ operator +:+ "." +:+ formattedValue.

(** What [fmt] prints under [%v].  Named types with a [String] or [Error]
    method are not modelled: a value is its underlying kind. *)
Fixpoint fmt_v (value : any) : string :=
  match value with
  | VNil => "<nil>"
  | VString s => s
  | VBool b => strconv_FormatBool b
  | VInt _ n => strconv_FormatInt n
  | VUint _ n => strconv_FormatUint n
  | VFloat k x =>
      fmt_v_float (match k with KFloat32 => true | KFloat64 => false end) x
  | VStrings l => "[" +:+ strings_Join l " " +:+ "]"
  | VSlice l => "[" +:+ strings_Join (map fmt_v l) " " +:+ "]"
  | VOther o => fmt_v_other o
  end.

(** [fmt.Sprintf("%d", n)] *)
Definition fmt_d (n : Z) : string := strconv_FormatInt n.

End Utils.

(** ** [url.Values]: a map from a key to the list of its values *)

Module Values.
Definition Set_ (v : gmap string (list string)) (key val : string)
  : gmap string (list string) :=
  <[key := [val]]> v.

Definition Add (v : gmap string (list string)) (key val : string)
  : gmap string (list string) :=
  <[key := default [] (v !! key) ++ [val]]> v.

Definition Get (v : gmap string (list string)) (key : string) : string :=
  match v !! key with
  | Some (x :: _) => x
  | _ => ""
  end.
End Values.

(** ** The query builder *)

Record Client := { baseURL : string; apiKey : string }.

Record filter `{GoStd} := {
  filter_column : string;
  filter_operator : string;
  filter_value : any;
  isOr : bool;
  isComplex : bool
}.

Record order := { order_column : string; direction : string }.

Record rangeQuery := { range_start : Z; range_end : Z }.

Record join := {
  foreignTable : string;
  localColumn : string;
  join_operator : string;
  foreignColumn : string
}.

Record QueryBuilder `{GoStd} := {
  client : Client;
  tableName : string;
  method : string;
  selectFields : list string;
  filters : list filter;
  orderFields : list order;
  limitValue : Z;
  offsetValue : Z;
  rangeValue : option rangeQuery;
  headers : gmap string string;
  joins : list join;
  rawQuery : string
}.

Definition MethodGet : string := "GET".
Definition MethodPost : string := "POST".
Definition MethodPatch : string := "PATCH".
Definition MethodDelete : string := "DELETE".

Section Builder.
Context `{GoStd}.

(** Assignments to one field of the builder. *)
Definition set_method (q : QueryBuilder) (m : string) : QueryBuilder :=
  {| client := client q; tableName := tableName q; method := m;
     selectFields := selectFields q; filters := filters q;
     orderFields := orderFields q; limitValue := limitValue q;
     offsetValue := offsetValue q; rangeValue := rangeValue q;
     headers := headers q; joins := joins q; rawQuery := rawQuery q |}.

Definition set_selectFields (q : QueryBuilder) (c : list string) : QueryBuilder :=
  {| client := client q; tableName := tableName q; method := method q;
     selectFields := c; filters := filters q;
     orderFields := orderFields q; limitValue := limitValue q;
     offsetValue := offsetValue q; rangeValue := rangeValue q;
     headers := headers q; joins := joins q; rawQuery := rawQuery q |}.

Definition set_filters (q : QueryBuilder) (f : list filter) : QueryBuilder :=
  {| client := client q; tableName := tableName q; method := method q;
     selectFields := selectFields q; filters := f;
     orderFields := orderFields q; limitValue := limitValue q;
     offsetValue := offsetValue q; rangeValue := rangeValue q;
     headers := headers q; joins := joins q; rawQuery := rawQuery q |}.

Definition set_orderFields (q : QueryBuilder) (o : list order) : QueryBuilder :=
  {| client := client q; tableName := tableName q; method := method q;
     selectFields := selectFields q; filters := filters q;
     orderFields := o; limitValue := limitValue q;
     offsetValue := offsetValue q; rangeValue := rangeValue q;
     headers := headers q; joins := joins q; rawQuery := rawQuery q |}.

Definition set_limitValue (q : QueryBuilder) (n : Z) : QueryBuilder :=
  {| client := client q; tableName := tableName q; method := method q;
     selectFields := selectFields q; filters := filters q;
     orderFields := orderFields q; limitValue := n;
     offsetValue := offsetValue q; rangeValue := rangeValue q;
     headers := headers q; joins := joins q; rawQuery := rawQuery q |}.

Definition set_offsetValue (q : QueryBuilder) (n : Z) : QueryBuilder :=
  {| client := client q; tableName := tableName q; method := method q;
     selectFields := selectFields q; filters := filters q;
     orderFields := orderFields q; limitValue := limitValue q;
     offsetValue := n; rangeValue := rangeValue q;
     headers := headers q; joins := joins q; rawQuery := rawQuery q |}.

Definition set_rangeValue (q : QueryBuilder) (r : option rangeQuery)
  : QueryBuilder :=
  {| client := client q; tableName := tableName q; method := method q;
     selectFields := selectFields q; filters := filters q;
     orderFields := orderFields q; limitValue := limitValue q;
     offsetValue := offsetValue q; rangeValue := r;
     headers := headers q; joins := joins q; rawQuery := rawQuery q |}.

Definition set_headers (q : QueryBuilder) (hs : gmap string string)
  : QueryBuilder :=
  {| client := client q; tableName := tableName q; method := method q;
     selectFields := selectFields q; filters := filters q;
     orderFields := orderFields q; limitValue := limitValue q;
     offsetValue := offsetValue q; rangeValue := rangeValue q;
     headers := hs; joins := joins q; rawQuery := rawQuery q |}.

Definition set_joins (q : QueryBuilder) (js : list join) : QueryBuilder :=
  {| client := client q; tableName := tableName q; method := method q;
     selectFields := selectFields q; filters := filters q;
     orderFields := orderFields q; limitValue := limitValue q;
     offsetValue := offsetValue q; rangeValue := rangeValue q;
     headers := headers q; joins := js; rawQuery := rawQuery q |}.

Definition set_rawQuery (q : QueryBuilder) (s : string) : QueryBuilder :=
  {| client := client q; tableName := tableName q; method := method q;
     selectFields := selectFields q; filters := filters q;
     orderFields := orderFields q; limitValue := limitValue q;
     offsetValue := offsetValue q; rangeValue := rangeValue q;
     headers := headers q; joins := joins q; rawQuery := s |}.

(** client.go, [Table]: every other field has Go's zero value. *)
Definition Table (c : Client) (name : string) : QueryBuilder :=
  {| client := c; tableName := name; method := MethodGet;
     selectFields := []; filters := []; orderFields := [];
     limitValue := 0; offsetValue := 0; rangeValue := None;
     headers := ∅; joins := []; rawQuery := "" |}.

(** The chainable setters.  Each returns the builder it was called on. *)
Definition Select (q : QueryBuilder) (columns : list string) : QueryBuilder :=
  set_selectFields q columns.

Definition Where (q : QueryBuilder) (column operator : string) (value : any)
  : QueryBuilder :=
  set_filters q (filters q ++
    [{| filter_column := column; filter_operator := operator;
        filter_value := value; isOr := false; isComplex := false |}]).

Definition OrWhere (q : QueryBuilder) (column operator : string) (value : any)
  : QueryBuilder :=
  set_filters q (filters q ++
    [{| filter_column := column; filter_operator := operator;
        filter_value := value; isOr := true; isComplex := false |}]).

Definition WhereRaw (q : QueryBuilder) (condition : string) : QueryBuilder :=
  set_filters q (filters q ++
    [{| filter_column := condition; filter_operator := "";
        filter_value := VNil; isOr := false; isComplex := true |}]).

Definition Order (q : QueryBuilder) (column dir : string) : QueryBuilder :=
  set_orderFields q (orderFields q ++
    [{| order_column := column; direction := dir |}]).

Definition Limit (q : QueryBuilder) (limit : Z) : QueryBuilder :=
  set_limitValue q limit.

Definition Offset (q : QueryBuilder) (offset : Z) : QueryBuilder :=
  set_offsetValue q offset.

Definition Range (q : QueryBuilder) (start end_ : Z) : QueryBuilder :=
  set_rangeValue q (Some {| range_start := start; range_end := end_ |}).

Definition Header (q : QueryBuilder) (key value : string) : QueryBuilder :=
  set_headers q (<[key := value]> (headers q)).

Definition Join (q : QueryBuilder)
    (foreignTable localColumn operator foreignColumn : string) : QueryBuilder :=
  set_joins q (joins q ++
    [{| foreignTable := foreignTable; localColumn := localColumn;
        join_operator := operator; foreignColumn := foreignColumn |}]).

Definition InnerJoin (q : QueryBuilder)
    (foreignTable localColumn foreignColumn : string) : QueryBuilder :=
  Join q foreignTable localColumn "eq" foreignColumn.

Definition LeftJoin (q : QueryBuilder)
    (foreignTable localColumn foreignColumn : string) : QueryBuilder :=
  let q := Join q foreignTable localColumn "eq" foreignColumn in
  Header q "Prefer" "missing=null".

Definition Raw (q : QueryBuilder) (query : string) : QueryBuilder :=
  set_rawQuery q query.

End Builder.

(** ** Requests, responses, errors and the caller's memory *)

(** What a caller passes as [data] / [result], and what [execute] may put in
    its place.  Containers the caller owns live in a store, addressed by
    number; a [DPtr] to an address with no container is a nil pointer. *)
Inductive data_arg `{GoStd} :=
  | DNil                          (* the nil interface *)
  | DPtr (l : nat)                (* pointer to a container of the caller *)
  | DValue (o : Obj)              (* a value that is not a pointer *)
  | DRawMessage                   (* pointer to the [json.RawMessage] local to [Count] *)
  | DSqlRequest (Query : string). (* the [sqlRequest] struct value of [execute] *)

Inductive error :=
  | Errorf (msg : string)          (* made by [fmt.Errorf] *)
  | TransportError (msg : string)  (* returned by the HTTP client *)
  | SyntaxError (msg : string)     (* json: the text is not valid JSON *)
  | InvalidUnmarshalError          (* json: the target is not a non-nil pointer *)
  | DecodeError (msg : string).    (* json: the text does not fit the target *)

(** A request as the builder hands it to the HTTP client.  Header names are
    kept as the builder has them; the client's own default headers and its
    canonical spelling of header names are not part of it. *)
Record Request `{GoStd} := {
  req_Method : string;
  req_URL : string;
  req_Header : gmap string string;
  req_QueryParam : gmap string (list string);
  req_Body : option data_arg
}.

Record Response := {
  StatusCode : Z;
  resp_Header : gmap string string;
  resp_Body : string
}.

(** resty: [IsError] is [StatusCode() > 399]. *)
Definition IsError (r : Response) : bool := bool_decide (399 < StatusCode r).

(** What one call of [execute] did. *)
Record outcome `{GoStd} := {
  out_builder : QueryBuilder;          (* the builder afterwards *)
  out_request : option Request;        (* the request issued, if one was *)
  out_decoded_into : option data_arg;  (* the target handed to [json.Unmarshal] *)
  out_store : gmap nat Obj;            (* the caller's containers afterwards *)
  out_err : option error               (* the returned error; [None] is nil *)
}.

Section Execute.
Context `{GoStd}.

(** The server, seen from the client: a transport error or a response. *)
Variable roundTrip : Request -> gmap nat Obj -> error + Response.

(** [resp.String()] *)
Definition Response_String (r : Response) : string :=
  strings_TrimSpace (resp_Body r).

(** [json.Unmarshal(body, v)]: only a non-nil pointer is written through. *)
Definition json_Unmarshal (body : string) (v : data_arg) (store : gmap nat Obj)
  : option error * gmap nat Obj :=
  match json_checkValid body with
  | Some msg => (Some (SyntaxError msg), store)
  | None =>
      match v with
      | DPtr l =>
          match store !! l with
          | Some o =>
              let '(e, o') := json_decode body o in
              (DecodeError <$> e, <[l := o']> store)
          | None => (Some InvalidUnmarshalError, store)
          end
      | DRawMessage => (None, store)
      | DNil | DValue _ | DSqlRequest _ => (Some InvalidUnmarshalError, store)
      end
  end.

(** [data != nil] *)
Definition not_nil (d : data_arg) : bool :=
  match d with DNil => false | _ => true end.

(** [len(l) > 0] *)
Definition nonempty {A} (l : list A) : bool := bool_decide (0 < length l)%nat.

(** The strings collected in [joinSelects]. *)
Definition joinSelects (js : list join) : list string :=
  map (fun j => foreignTable j +:+ "(*)") js.

(** The [condition] of a standard filter. *)
Definition condition (f : filter) : string :=
  if isOr f then
    "or(" +:+ filter_column f +:+ "." +:+ filter_operator f +:+ "."
          +:+ fmt_v (filter_value f) +:+ ")"
  else
    filter_column f +:+ "." +:+ filter_operator f +:+ "."
          +:+ fmt_v (filter_value f).

(** One pass of the loop over [q.filters]. *)
Definition add_filter (queryParams : gmap string (list string)) (f : filter)
  : gmap string (list string) :=
  if isComplex f then Values.Add queryParams "and" (filter_column f)
  else Values.Add queryParams "and" (condition f).

(** The [url.Values] that [execute] builds when [q.rawQuery] is empty. *)
Definition queryParams (q : QueryBuilder) : gmap string (list string) :=
  let queryParams : gmap string (list string) := ∅ in
  let queryParams :=
    if nonempty (selectFields q) then
      Values.Set_ queryParams "select" (strings_Join (selectFields q) ",")
    else queryParams in
  let queryParams :=
    if nonempty (joins q) then
      if nonempty (selectFields q) then
        Values.Set_ queryParams "select"
          (Values.Get queryParams "select" +:+ "," +:+
           strings_Join (joinSelects (joins q)) ",")
      else
        Values.Set_ queryParams "select"
          ("*," +:+ strings_Join (joinSelects (joins q)) ",")
    else queryParams in
  let queryParams := fold_left add_filter (filters q) queryParams in
  let queryParams :=
    if nonempty (orderFields q) then
      Values.Set_ queryParams "order"
        (strings_Join
           (map (fun o => order_column o +:+ "." +:+ direction o)
                (orderFields q)) ",")
    else queryParams in
  let queryParams :=
    if bool_decide (0 < limitValue q) then
      Values.Set_ queryParams "limit" (fmt_d (limitValue q))
    else queryParams in
  let queryParams :=
    if bool_decide (0 < offsetValue q) then
      Values.Set_ queryParams "offset" (fmt_d (offsetValue q))
    else queryParams in
  queryParams.

(** The query builder's [execute]. *)
Definition execute (q : QueryBuilder) (data : data_arg) (store : gmap nat Obj)
  : outcome :=
  let raw := bool_decide (rawQuery q ≠ "") in
  let endpoint :=
    if raw then baseURL (client q) +:+ "/rest/v1/rpc/execute_sql"
    else baseURL (client q) +:+ "/rest/v1/" +:+ tableName q in
  let q := if raw then set_method q MethodPost else q in
  let data := if raw then DSqlRequest (rawQuery q) else data in
  (* req := q.client.RawRequest(), then the custom headers *)
  let header := headers q in
  let header :=
    if bool_decide (rawQuery q = "") then
      match rangeValue q with
      | Some r =>
          <["Range" := fmt_d (range_start r) +:+ "-" +:+ fmt_d (range_end r)]>
            header
      | None => header
      end
    else header in
  let params : gmap string (list string) :=
    if bool_decide (rawQuery q = "") then queryParams q else ∅ in
  let req (body : option data_arg) : Request :=
    {| req_Method := method q; req_URL := endpoint; req_Header := header;
       req_QueryParam := params; req_Body := body |} in
  let stop (r : option Request) (e : option error) : outcome :=
    {| out_builder := q; out_request := r; out_decoded_into := None;
       out_store := store; out_err := e |} in
  let sent : option Request :=
    if bool_decide (method q = MethodGet) then Some (req None)
    else if bool_decide (method q = MethodPost) then Some (req (Some data))
    else if bool_decide (method q = MethodPatch) then Some (req (Some data))
    else if bool_decide (method q = MethodDelete) then Some (req None)
    else None in
  match sent with
  | None =>
      stop None (Some (Errorf ("unsupported HTTP method: " +:+ method q)))
  | Some r =>
      match roundTrip r store with
      | inl err => stop (Some r) (Some err)
      | inr resp =>
          if IsError resp then
            stop (Some r) (Some (Errorf ("API error: " +:+ Response_String resp)))
          else if bool_decide (method q = MethodGet) && not_nil data
                  || bool_decide (method q = MethodPost) && not_nil data then
            let '(e, store') := json_Unmarshal (resp_Body resp) data store in
            {| out_builder := q; out_request := Some r;
               out_decoded_into := Some data;
               out_store := store'; out_err := e |}
          else stop (Some r) None
      end
  end.

(** The terminal operations. *)
Definition Get (q : QueryBuilder) (result : data_arg) (store : gmap nat Obj)
  : outcome :=
  execute q result store.

Definition First (q : QueryBuilder) (result : data_arg) (store : gmap nat Obj)
  : outcome :=
  let q := Limit q 1 in
  execute q result store.

Definition Insert (q : QueryBuilder) (data : data_arg) (store : gmap nat Obj)
  : outcome :=
  let q := set_method q MethodPost in
  execute q data store.

Definition Update (q : QueryBuilder) (data : data_arg) (store : gmap nat Obj)
  : outcome :=
  let q := set_method q MethodPatch in
  execute q data store.

Definition Delete (q : QueryBuilder) (store : gmap nat Obj) : outcome :=
  let q := set_method q MethodDelete in
  execute q DNil store.

(** [Count] returns the count and the error; the third component is what
    its call of [execute] did. *)
Definition Count (q : QueryBuilder) (store : gmap nat Obj)
  : Z * option error * outcome :=
  let q := Header q "Prefer" "count=exact" in
  let o := execute q DRawMessage store in
  match out_err o with
  | Some err => (0, Some err, o)
  | None => (0, None, o)
  end.

End Execute.

(** ** transaction.go *)

Record Transaction := { tx_client : Client }.

Section TransactionOps.
Context `{GoStd}.

Definition Begin (c : Client) : Transaction := {| tx_client := c |}.

Definition Transaction_Table (t : Transaction) (name : string) : QueryBuilder :=
  let builder := Table (tx_client t) name in
  Header builder "Prefer" "tx=commit".

Definition Commit (t : Transaction) : option error := None.

Definition Rollback (t : Transaction) : option error :=
  Some (Errorf "rollback not supported in the current Supabase REST API").

End TransactionOps.

(** ** The operator table of the filter grammar

    The aliases and keywords as a table from a token to its PostgREST
    keyword; a token the table does not list stands for itself. *)

Definition operator_table : list (string * string) :=
  [ ("eq", "eq"); ("=", "eq");
    ("neq", "neq"); ("!=", "neq"); ("<>", "neq");
    ("gt", "gt"); (">", "gt");
    ("gte", "gte"); (">=", "gte");
    ("lt", "lt"); ("<", "lt");
    ("lte", "lte"); ("<=", "lte");
    ("like", "like"); ("ilike", "ilike"); ("in", "in"); ("is", "is") ].

Fixpoint table_lookup (token : string) (table : list (string * string))
  : option string :=
  match table with
  | [] => None
  | (t, k) :: rest => if String.eqb token t then Some k else table_lookup token rest
  end.

Definition canonical_keyword (token : string) : string :=
  default token (table_lookup token operator_table).

(** The text a filter contributes under [and]. *)
Definition filter_text `{GoStd} (f : filter) : string :=
  if isComplex f then filter_column f else condition f.


(** [n] collections around a value, one inside the other. *)
Fixpoint nested `{GoStd} (n : nat) (v : any) : any :=
  match n with
  | O => v
  | S n' => VSlice [nested n' v]
  end.

Fixpoint replicate_string (n : nat) (s : string) : string :=
  match n with
  | O => ""
  | S n' => s +:+ replicate_string n' s
  end.

(** A small world for closed examples: no floats and no values of other
    kinds, every body is valid JSON, and decoding stores the body text. *)
Definition sample_std : GoStd :=
  {| Float := Empty_set;
     strconv_FormatFloat_f64 := fun x => match x with end;
     fmt_v_float := fun _ x => match x with end;
     Other := Empty_set;
     fmt_v_other := fun o => match o with end;
     strings_TrimSpace := fun s => s;
     Obj := string;
     json_checkValid := fun _ => None;
     json_decode := fun body _ => (None, body) |}.

Definition sample_client : Client :=
  {| baseURL := "https://example.supabase.co"; apiKey := "test-api-key" |}.

(** A server that answers every request with [200] and the given body. *)
Definition ok_server (body : string)
  : @Request sample_std -> gmap nat string -> error + Response :=
  fun _ _ => inr {| StatusCode := 200; resp_Header := ∅; resp_Body := body |}.

(** A builder with a select list, a filter, a limit and two joins. *)
Definition users_query : @QueryBuilder sample_std :=
  InnerJoin
    (InnerJoin
       (Limit
          (Where (Select (Table (H := sample_std) sample_client "users")
                         ["id"; "name"])
                 "age" "gt" (VInt KInt 18))
          10)
       "posts" "id" "user_id")
    "comments" "id" "user_id".

(** ** utils.go, [ParseContentRange], and what it calls *)

(** [strings.Split(s, sep)] for a separator of one byte, which is how
    [ParseContentRange] calls it: the pieces between the separators, one
    more than there are separators. *)
Fixpoint strings_Split (s : string) (sep : ascii) : list string :=
  match s with
  | EmptyString => [EmptyString]
  | String a rest =>
      if Ascii.eqb a sep then EmptyString :: strings_Split rest sep
      else
        match strings_Split rest sep with
        | piece :: pieces => String a piece :: pieces
        | [] => [String a EmptyString]
        end
  end.

(** [s] without the leading [prefix], when it starts with it. *)
Fixpoint cut_prefix (prefix s : string) : option string :=
  match prefix with
  | EmptyString => Some s
  | String p prefix' =>
      match s with
      | EmptyString => None
      | String a s' => if Ascii.eqb a p then cut_prefix prefix' s' else None
      end
  end.

(** [strings.TrimPrefix(s, prefix)] *)
Definition strings_TrimPrefix (s prefix : string) : string :=
  default s (cut_prefix prefix s).

Definition MaxInt : Z := 9223372036854775807.
Definition MinInt : Z := -9223372036854775808.

(** [strconv.Atoi(s)] with a 64-bit [int]: the number and whether an error
    came with it.  An optional sign, then decimal digits and nothing else;
    anything else is a syntax error with 0, and a number out of range comes
    back as the nearest bound with a range error. *)
Definition strconv_Atoi (s : string) : Z * bool :=
  let '(neg, digits) :=
    match s with
    | String a rest =>
        if Ascii.eqb a "+" then (false, rest)
        else if Ascii.eqb a "-" then (true, rest)
        else (false, s)
    | EmptyString => (false, s)
    end in
  match NilZero.uint_of_string digits with
  | None => (0, true)
  | Some d =>
      let un := Z.of_uint d in
      if negb neg && bool_decide (MaxInt < un) then (MaxInt, true)
      else if neg && bool_decide (- MinInt < un) then (MinInt, true)
      else (if neg then - un else un, false)
  end.

(** utils.go, [ParseContentRange]: [(start, end, total)].  The errors of
    [Atoi] are dropped, as in the source. *)
Definition ParseContentRange (contentRange : string) : Z * Z * Z :=
  match strings_Split contentRange "/" with
  | [part0; totalStr] =>
      let total := (strconv_Atoi totalStr).1 in
      match strings_Split part0 "-" with
      | [range0; range1] =>
          let startStr := strings_TrimPrefix range0 "items " in
          ((strconv_Atoi startStr).1, (strconv_Atoi range1).1, total)
      | _ => (0, 0, total)
      end
  | _ => (0, 0, 0)
  end.

(** Whether a byte occurs in a string. *)
Fixpoint has_byte (c : ascii) (s : string) : bool :=
  match s with
  | EmptyString => false
  | String a rest => Ascii.eqb a c || has_byte c rest
  end.

(** How often a byte occurs in a string. *)
Fixpoint count_byte (c : ascii) (s : string) : nat :=
  match s with
  | EmptyString => O
  | String a rest => ((if Ascii.eqb a c then 1 else 0) + count_byte c rest)%nat
  end.

(** ** The response wrapper (the package's own [Response]) *)

Module Wrapper.

(** What the wrapper reads of a [resty.Response]: the status, the header
    with every value of each name, and the body. *)
Record RestyResponse := {
  resty_StatusCode : Z;
  resty_Header : gmap string (list string);
  resty_Body : string
}.

Record Response := {
  StatusCode : Z;
  Headers : gmap string string;
  Body : string;
  Error : option error
}.

(** [NewResponse]: with an error, every other field has Go's zero value. *)
Definition NewResponse (resp : RestyResponse) (err : option error) : Response :=
  match err with
  | Some e =>
      {| StatusCode := 0; Headers := ∅; Body := EmptyString; Error := Some e |}
  | None =>
      {| StatusCode := resty_StatusCode resp;
         (* for k, v := range resp.Header(): if len(v) > 0, headers[k] = v[0] *)
         Headers := omap head (resty_Header resp);
         Body := resty_Body resp;
         Error := None |}
  end.

Definition IsError (r : Response) : bool :=
  match Error r with
  | Some _ => true
  | None => bool_decide (400 ≤ StatusCode r)
  end.

Definition GetContentRange (r : Response) : Z * Z * Z := (0, 0, 0).

End Wrapper.

(** ** Chains of setter calls *)

(** One call of a chainable setter, with its arguments. *)
Inductive setter `{GoStd} :=
  | CallSelect (columns : list string)
  | CallWhere (column operator : string) (value : any)
  | CallOrWhere (column operator : string) (value : any)
  | CallWhereRaw (condition : string)
  | CallOrder (column dir : string)
  | CallLimit (limit : Z)
  | CallOffset (offset : Z)
  | CallRange (start end_ : Z)
  | CallHeader (key value : string)
  | CallJoin (foreignTable localColumn operator foreignColumn : string)
  | CallInnerJoin (foreignTable localColumn foreignColumn : string)
  | CallLeftJoin (foreignTable localColumn foreignColumn : string)
  | CallRaw (query : string).

Definition call `{GoStd} (q : QueryBuilder) (s : setter) : QueryBuilder :=
  match s with
  | CallSelect columns => Select q columns
  | CallWhere column operator value => Where q column operator value
  | CallOrWhere column operator value => OrWhere q column operator value
  | CallWhereRaw condition => WhereRaw q condition
  | CallOrder column dir => Order q column dir
  | CallLimit limit => Limit q limit
  | CallOffset offset => Offset q offset
  | CallRange start end_ => Range q start end_
  | CallHeader key value => Header q key value
  | CallJoin ft lc op fc => Join q ft lc op fc
  | CallInnerJoin ft lc fc => InnerJoin q ft lc fc
  | CallLeftJoin ft lc fc => LeftJoin q ft lc fc
  | CallRaw query => Raw q query
  end.

(** [q.A(...).B(...)...]: the calls applied from left to right. *)
Definition chain `{GoStd} (q : QueryBuilder) (calls : list setter)
  : QueryBuilder :=
  fold_left call calls q.

(** The methods the switch of [execute] knows. *)
Definition supported (m : string) : Prop :=
  m ∈ [MethodGet; MethodPost; MethodPatch; MethodDelete].




(** * Properties *)

(** ** Strings *)

(** [String.append] does not unfold under [simpl] here; these are its two
    equations. *)
Lemma append_nil_l (b : string) : "" +:+ b = b.
Proof. reflexivity. Qed.

Lemma append_cons (ch : ascii) (a b : string) :
  String ch a +:+ b = String ch (a +:+ b).
Proof. reflexivity. Qed.

Lemma append_nil_r (a : string) : a +:+ "" = a.
Proof.
  induction a as [|ch a IH]; [done|].
  rewrite append_cons. by f_equal.
Qed.

Lemma append_assoc (a b c : string) : (a +:+ b) +:+ c = a +:+ (b +:+ c).
Proof.
  induction a as [|ch a IH]; [done|].
  rewrite !append_cons. by f_equal.
Qed.

Lemma strings_Join_concat (l : list string) (sep : string) :
  strings_Join l sep = String.concat sep l.
Proof.
  induction l as [|x [|y l] IH]; [done | done |].
  change (x +:+ sep +:+ strings_Join (y :: l) sep
          = x +:+ sep +:+ String.concat sep (y :: l)).
  by rewrite IH.
Qed.

(** ** The query parameters, key by key *)

Section QueryParams.
Context `{GoStd}.

Lemma nonempty_false {A} (l : list A) : nonempty l = false ↔ l = [].
Proof.
  unfold nonempty. destruct l as [|x l]; [done|].
  rewrite bool_decide_eq_false. simpl. split; [lia | done].
Qed.

Lemma nonempty_true {A} (l : list A) : nonempty l = true ↔ l ≠ [].
Proof.
  unfold nonempty. destruct l as [|x l]; [done|].
  rewrite bool_decide_eq_true. simpl. split; [done | lia].
Qed.

Lemma add_filter_other (p : gmap string (list string)) f k :
  k ≠ "and" → add_filter p f !! k = p !! k.
Proof.
  intros Hk. unfold add_filter, Values.Add.
  destruct (isComplex f); by rewrite lookup_insert_ne.
Qed.

Lemma add_filter_and (p : gmap string (list string)) f :
  add_filter p f !! "and" = Some (default [] (p !! "and") ++ [filter_text f]).
Proof.
  unfold add_filter, filter_text, Values.Add.
  destruct (isComplex f); by rewrite lookup_insert_eq.
Qed.

Lemma fold_add_filter_other fs (p : gmap string (list string)) k :
  k ≠ "and" → fold_left add_filter fs p !! k = p !! k.
Proof.
  intros Hk. revert p. induction fs as [|f fs IH]; intros p; simpl; [done|].
  by rewrite IH, add_filter_other.
Qed.

Lemma fold_add_filter_and fs (p : gmap string (list string)) :
  fold_left add_filter fs p !! "and"
  = if nonempty fs then Some (default [] (p !! "and") ++ map filter_text fs)
    else p !! "and".
Proof.
  revert p. induction fs as [|f fs IH]; intros p; [done|].
  change (fold_left add_filter (f :: fs) p)
    with (fold_left add_filter fs (add_filter p f)).
  rewrite IH, add_filter_and.
  replace (nonempty (f :: fs)) with true by (symmetry; by apply nonempty_true).
  destruct (nonempty fs) eqn:Hfs.
  - simpl. by rewrite <- app_assoc.
  - apply nonempty_false in Hfs. by subst fs.
Qed.

(** The values under [and] are the filters' texts, in the order the
    filters were added; with no filter there is no [and] key. *)
Lemma queryParams_and q :
  queryParams q !! "and"
  = if nonempty (filters q) then Some (map filter_text (filters q)) else None.
Proof.
  unfold queryParams, Values.Set_.
  assert (Hsel : ∀ p : gmap string (list string),
             p !! "and" = None →
             fold_left add_filter (filters q) p !! "and"
             = if nonempty (filters q)
               then Some (map filter_text (filters q)) else None).
  { intros p Hp. rewrite fold_add_filter_and, Hp. by destruct (nonempty _). }
  repeat case_bool_decide;
    destruct (nonempty (orderFields q)), (nonempty (joins q)),
      (nonempty (selectFields q));
    rewrite ?lookup_insert_ne by done;
    apply Hsel; rewrite ?lookup_insert_ne by done; apply lookup_empty.
Qed.

Lemma queryParams_limit q :
  queryParams q !! "limit"
  = if bool_decide (0 < limitValue q) then Some [fmt_d (limitValue q)]
    else None.
Proof.
  unfold queryParams, Values.Set_.
  repeat (case_bool_decide || case_match);
    rewrite ?lookup_insert_eq; rewrite ?lookup_insert_ne by done;
    rewrite ?lookup_insert_eq; try done;
    rewrite ?fold_add_filter_other by done;
    rewrite ?lookup_insert_ne by done; by rewrite ?lookup_empty.
Qed.

Lemma queryParams_offset q :
  queryParams q !! "offset"
  = if bool_decide (0 < offsetValue q) then Some [fmt_d (offsetValue q)]
    else None.
Proof.
  unfold queryParams, Values.Set_.
  repeat (case_bool_decide || case_match);
    rewrite ?lookup_insert_eq; rewrite ?lookup_insert_ne by done;
    rewrite ?lookup_insert_eq; try done;
    rewrite ?fold_add_filter_other by done;
    rewrite ?lookup_insert_ne by done; by rewrite ?lookup_empty.
Qed.

Lemma queryParams_select q :
  queryParams q !! "select"
  = if nonempty (joins q) then
      if nonempty (selectFields q) then
        Some [strings_Join (selectFields q) "," +:+ "," +:+
              strings_Join (joinSelects (joins q)) ","]
      else Some ["*," +:+ strings_Join (joinSelects (joins q)) ","]
    else if nonempty (selectFields q) then
      Some [strings_Join (selectFields q) ","]
    else None.
Proof.
  unfold queryParams, Values.Set_, Values.Get.
  repeat (case_bool_decide || case_match); simplify_eq;
    rewrite ?lookup_insert_ne by done;
    rewrite ?fold_add_filter_other by done;
    rewrite ?lookup_insert_eq in *; simplify_eq; try done;
    by rewrite ?lookup_empty.
Qed.

End QueryParams.

(** ** What [execute] sends *)

Section Requests.
Context `{GoStd}.
Variable roundTrip : Request -> gmap nat Obj -> error + Response.

(** With a raw query the request is always issued, and it is this one. *)
Lemma execute_request_raw q data store :
  rawQuery q ≠ "" →
  out_request (execute roundTrip q data store)
  = Some {| req_Method := MethodPost;
            req_URL := baseURL (client q) +:+ "/rest/v1/rpc/execute_sql";
            req_Header := headers q;
            req_QueryParam := ∅;
            req_Body := Some (DSqlRequest (rawQuery q)) |}.
Proof.
  intros Hraw. unfold execute.
  rewrite (bool_decide_eq_true_2 (rawQuery q ≠ "")) by done.
  cbn [set_method rawQuery method headers client rangeValue].
  rewrite (bool_decide_eq_false_2 (rawQuery q = "")) by done.
  rewrite (bool_decide_eq_false_2 (MethodPost = MethodGet)) by done.
  rewrite (bool_decide_eq_true_2 (MethodPost = MethodPost)) by done.
  destruct (roundTrip _ store) as [err|resp]; [done|].
  destruct (IsError resp); [done|].
  cbn [andb orb not_nil].
  by destruct (json_Unmarshal _ _ _).
Qed.

(** Without one, a request that is issued carries [queryParams q]. *)
Lemma execute_request_normal q data store r :
  rawQuery q = "" →
  out_request (execute roundTrip q data store) = Some r →
  req_Method r = method q ∧
  req_URL r = baseURL (client q) +:+ "/rest/v1/" +:+ tableName q ∧
  req_QueryParam r = queryParams q ∧
  (∀ k, k ≠ "Range" → req_Header r !! k = headers q !! k).
Proof.
  intros Hraw. unfold execute.
  rewrite (bool_decide_eq_false_2 (rawQuery q ≠ "")) by (by intros []).
  rewrite (bool_decide_eq_true_2 (rawQuery q = "")) by done.
  set (hdr := match rangeValue q with Some _ => _ | None => _ end).
  assert (Hhdr : ∀ k, k ≠ "Range" → hdr !! k = headers q !! k).
  { intros k Hk. subst hdr. destruct (rangeValue q); [|done].
    by rewrite lookup_insert_ne. }
  intros Hreq.
  assert (Hshape : ∃ body, r = {| req_Method := method q;
             req_URL := baseURL (client q) +:+ "/rest/v1/" +:+ tableName q;
             req_Header := hdr; req_QueryParam := queryParams q;
             req_Body := body |}).
  { revert Hreq.
    repeat case_bool_decide; cbn [andb orb];
      repeat (case_match; cbn [out_request]); intros; simplify_eq; eauto. }
  destruct Hshape as [body ->]. by cbn.
Qed.

End Requests.

(** ** The filter helpers of utils.go *)

Lemma table_lookup_None (token : string) (table : list (string * string)) :
  token ∉ table.*1 → table_lookup token table = None.
Proof.
  induction table as [|[t k] table IH]; intros Hnot; [done|].
  simpl. destruct (String.eqb_spec token t) as [->|Hne].
  - exfalso. apply Hnot. simpl. left.
  - apply IH. intros Hin. apply Hnot. simpl. by right.
Qed.

Lemma canonical_keyword_unlisted (token : string) :
  token ∉ operator_table.*1 → canonical_keyword token = token.
Proof.
  intros Hnot. unfold canonical_keyword. by rewrite table_lookup_None.
Qed.

Section FilterHelpers.
Context `{GoStd}.

Lemma case_of_false (operator : string) (labels : list string) :
  operator ∉ labels → case_of operator labels = false.
Proof. intros Hnot. by apply bool_decide_eq_false_2. Qed.

(** C2: [BuildFilterCondition] returns [<column>=<op>.<formatted value>],
    where [<op>] is the keyword the operator table gives for the token
    ([=] is [eq], [!=] and [<>] are [neq], [>] is [gt], [>=] is [gte],
    [<] is [lt], [<=] is [lte], the ten keywords stand for themselves) and
    a token outside the table is passed through as it is; the value is
    formatted by [FormatFilterValue]. *)
Theorem BuildFilterCondition_keyword (column operator : string) (value : any) :
  BuildFilterCondition column operator value
  = column +:+ "=" +:+ canonical_keyword operator +:+ "."
      +:+ FormatFilterValue value
  ∧ (canonical_keyword "=" = "eq" ∧ canonical_keyword "!=" = "neq" ∧
     canonical_keyword "<>" = "neq" ∧ canonical_keyword ">" = "gt" ∧
     canonical_keyword ">=" = "gte" ∧ canonical_keyword "<" = "lt" ∧
     canonical_keyword "<=" = "lte")
  ∧ Forall (λ k, canonical_keyword k = k)
      ["eq"; "neq"; "gt"; "gte"; "lt"; "lte"; "like"; "ilike"; "in"; "is"]
  ∧ (operator ∉ operator_table.*1 →
     canonical_keyword operator = operator ∧
     BuildFilterCondition column operator value
     = column +:+ "=" +:+ operator +:+ "." +:+ FormatFilterValue value).
Proof.
  assert (Hmain : BuildFilterCondition column operator value
            = column +:+ "=" +:+ canonical_keyword operator +:+ "."
                +:+ FormatFilterValue value).
  { destruct (decide (operator ∈ operator_table.*1)) as [Hin|Hnot].
    - unfold operator_table in Hin. simpl in Hin.
      repeat (apply elem_of_cons in Hin as [->|Hin]; [reflexivity|]).
      by apply elem_of_nil in Hin.
    - rewrite canonical_keyword_unlisted by done.
      unfold BuildFilterCondition.
      rewrite !case_of_false; [done|..];
        intros Hin; apply Hnot; unfold operator_table; simpl;
        rewrite !elem_of_cons in *; rewrite elem_of_nil in Hin; tauto. }
  split; [exact Hmain|].
  split; [by repeat split|].
  split; [by repeat constructor|].
  intros Hnot. split; [by apply canonical_keyword_unlisted|].
  rewrite Hmain. by rewrite canonical_keyword_unlisted.
Qed.

End FilterHelpers.

(** ** The value formatter *)

Lemma parse_FormatInt (n : Z) : parse_decimal (strconv_FormatInt n) = Some n.
Proof.
  unfold parse_decimal, strconv_FormatInt.
  rewrite NilZero.isi.
  - simpl. by rewrite DecimalZ.of_to.
  - intros Heq.
    assert (n = 0) as -> by (by rewrite <- (DecimalZ.of_to n), Heq).
    discriminate Heq.
  - intros Heq.
    assert (n = 0) as -> by (by rewrite <- (DecimalZ.of_to n), Heq).
    discriminate Heq.
Qed.

Lemma replicate_string_comm (n : nat) (s : string) :
  replicate_string n s +:+ s = s +:+ replicate_string n s.
Proof.
  induction n as [|n IH]; simpl.
  - by rewrite append_nil_r.
  - by rewrite append_assoc, IH.
Qed.

Section Formatter.
Context `{GoStd}.

Lemma FormatFilterValue_nested (n : nat) (v : any) :
  FormatFilterValue (nested n v)
  = replicate_string n "{" +:+ FormatFilterValue v +:+ replicate_string n "}".
Proof.
  induction n as [|n IH].
  - simpl. by rewrite append_nil_r.
  - change (FormatFilterValue (nested (S n) v))
      with ("{" +:+ FormatFilterValue (nested n v) +:+ "}").
    rewrite IH.
    change (replicate_string (S n) "{") with ("{" +:+ replicate_string n "{").
    change (replicate_string (S n) "}") with ("}" +:+ replicate_string n "}").
    rewrite !append_assoc. by rewrite (replicate_string_comm n "}").
Qed.

(** C4: the formatter gives a string between double quotes, a boolean as
    [true] or [false], an integer of any kind as its base-10 text (read
    back, the text is the integer), a collection of strings as the
    comma-joined quoted elements between braces, an empty collection as
    [{}], and any other collection as its elements' formats joined by
    commas between braces: separators stand between elements only, and
    collections nest to any depth. *)
Theorem FormatFilterValue_literals :
  (∀ s, FormatFilterValue (VString s) = dquote +:+ s +:+ dquote) ∧
  (FormatFilterValue (VBool true) = "true" ∧
   FormatFilterValue (VBool false) = "false") ∧
  (∀ k n, parse_decimal (FormatFilterValue (VInt k n)) = Some n) ∧
  (∀ k n, parse_decimal (FormatFilterValue (VUint k n)) = Some n) ∧
  (∀ l, FormatFilterValue (VStrings l)
        = "{" +:+ String.concat "," (map (λ s, dquote +:+ s +:+ dquote) l)
              +:+ "}") ∧
  (∀ a b, FormatFilterValue (VStrings [a; b])
          = "{" +:+ dquote +:+ a +:+ dquote +:+ "," +:+
            dquote +:+ b +:+ dquote +:+ "}") ∧
  (FormatFilterValue (VStrings []) = "{}" ∧
   FormatFilterValue (VSlice []) = "{}") ∧
  (∀ l, FormatFilterValue (VSlice l)
        = "{" +:+ String.concat "," (map FormatFilterValue l) +:+ "}") ∧
  (∀ v, FormatFilterValue (VSlice [v]) = "{" +:+ FormatFilterValue v +:+ "}") ∧
  (∀ v w, FormatFilterValue (VSlice [v; w])
          = "{" +:+ FormatFilterValue v +:+ "," +:+ FormatFilterValue w
                +:+ "}") ∧
  (∀ n v, FormatFilterValue (nested n v)
          = replicate_string n "{" +:+ FormatFilterValue v
              +:+ replicate_string n "}").
Proof.
  repeat split; try done.
  - intros k n. apply parse_FormatInt.
  - intros k n. apply parse_FormatInt.
  - intros l. simpl. unfold braces. by rewrite strings_Join_concat.
  - intros a b. simpl. unfold braces, quote. by rewrite !append_assoc.
  - intros l. simpl. unfold braces. by rewrite strings_Join_concat.
  - intros v w. simpl. unfold braces. by rewrite !append_assoc.
  - apply FormatFilterValue_nested.
Qed.

End Formatter.

(** ** Compiling a builder into a request *)

Section Compilation.
Context `{GoStd}.
Variable roundTrip : Request -> gmap nat Obj -> error + Response.

(** C7: in normal mode the request carries [limit] exactly when the
    stored limit is positive, and [offset] exactly when the stored offset
    is positive, each with the value in base 10; a stored zero emits
    nothing, and setting zero on a builder whose value is still the
    initial zero leaves the builder as it was. *)
Theorem limit_offset_emitted_when_positive q data store r :
  rawQuery q = "" →
  out_request (execute roundTrip q data store) = Some r →
  (is_Some (req_QueryParam r !! "limit") ↔ 0 < limitValue q) ∧
  (is_Some (req_QueryParam r !! "offset") ↔ 0 < offsetValue q) ∧
  (0 < limitValue q →
   req_QueryParam r !! "limit" = Some [fmt_d (limitValue q)]) ∧
  (0 < offsetValue q →
   req_QueryParam r !! "offset" = Some [fmt_d (offsetValue q)]) ∧
  (limitValue q = 0 →
   req_QueryParam r !! "limit" = None ∧ Limit q 0 = q) ∧
  (offsetValue q = 0 →
   req_QueryParam r !! "offset" = None ∧ Offset q 0 = q).
Proof.
  intros Hraw Hreq.
  destruct (execute_request_normal roundTrip q data store r Hraw Hreq)
    as (_ & _ & -> & _).
  rewrite queryParams_limit, queryParams_offset.
  assert (Hlimit0 : limitValue q = 0 → Limit q 0 = q).
  { intros Hz. destruct q; simpl in *. by subst. }
  assert (Hoffset0 : offsetValue q = 0 → Offset q 0 = q).
  { intros Hz. destruct q; simpl in *. by subst. }
  assert (Hnone : ∀ A : Type, ¬ is_Some (@None A)) by (by intros A [x Hx]).
  repeat case_bool_decide; repeat split; intros;
    first [ done | lia | by eauto | by apply Hlimit0 | by apply Hoffset0
          | exfalso; by eapply Hnone ].
Qed.

(** C6: with at least one join, the [select] parameter is the selected
    columns joined by commas, or [*] when none is selected, then a comma,
    then one fragment per join, the foreign table's name followed by a
    star in parentheses, in the order the joins were added; [Join] adds at
    the end, so two chained joins appear in the order of the calls. *)
Theorem joins_extend_select q data store r :
  rawQuery q = "" →
  joins q ≠ [] →
  out_request (execute roundTrip q data store) = Some r →
  req_QueryParam r !! "select"
  = Some [(if nonempty (selectFields q)
           then strings_Join (selectFields q) "," else "*")
          +:+ "," +:+
          strings_Join (map (λ j, foreignTable j +:+ "(*)") (joins q)) ","]
  ∧ (∀ t1 l1 o1 f1 t2 l2 o2 f2,
       map foreignTable (joins (Join (Join q t1 l1 o1 f1) t2 l2 o2 f2))
       = map foreignTable (joins q) ++ [t1; t2]).
Proof.
  intros Hraw Hjoins Hreq.
  destruct (execute_request_normal roundTrip q data store r Hraw Hreq)
    as (_ & _ & -> & _).
  split.
  - rewrite queryParams_select.
    apply nonempty_true in Hjoins. rewrite Hjoins.
    by destruct (nonempty (selectFields q)).
  - intros. simpl. rewrite <- app_assoc. by rewrite map_app.
Qed.


(** The whole outcome of [execute] on a builder with a raw query. *)
Lemma execute_raw q data store :
  rawQuery q ≠ "" →
  let q' := set_method q MethodPost in
  let r := {| req_Method := MethodPost;
              req_URL := baseURL (client q) +:+ "/rest/v1/rpc/execute_sql";
              req_Header := headers q;
              req_QueryParam := ∅;
              req_Body := Some (DSqlRequest (rawQuery q)) |} in
  execute roundTrip q data store
  = match roundTrip r store with
    | inl err =>
        {| out_builder := q'; out_request := Some r;
           out_decoded_into := None; out_store := store;
           out_err := Some err |}
    | inr resp =>
        if IsError resp then
          {| out_builder := q'; out_request := Some r;
             out_decoded_into := None; out_store := store;
             out_err :=
               Some (Errorf ("API error: " +:+ Response_String resp)) |}
        else
          {| out_builder := q'; out_request := Some r;
             out_decoded_into := Some (DSqlRequest (rawQuery q));
             out_store := store;
             out_err :=
               Some (match json_checkValid (resp_Body resp) with
                     | Some msg => SyntaxError msg
                     | None => InvalidUnmarshalError
                     end) |}
    end.
Proof.
  intros Hraw. cbv zeta. unfold execute.
  rewrite (bool_decide_eq_true_2 (rawQuery q ≠ "")) by done.
  cbn [set_method rawQuery method headers client rangeValue].
  rewrite (bool_decide_eq_false_2 (rawQuery q = "")) by done.
  rewrite (bool_decide_eq_false_2 (MethodPost = MethodGet)) by done.
  rewrite (bool_decide_eq_true_2 (MethodPost = MethodPost)) by done.
  destruct (roundTrip _ store) as [err|resp]; [done|].
  destruct (IsError resp); [done|].
  cbn [andb orb not_nil]. unfold json_Unmarshal.
  by destruct (json_checkValid (resp_Body resp)).
Qed.

(** C3: after [Raw] with a non-empty text, each of [Get], [First],
    [Insert], [Update] and [Delete] issues the same request: [POST] to
    [<base>/rest/v1/rpc/execute_sql] with the body holding the text under
    [query], no query parameter, and the custom headers only; nothing of
    the select, filter, order, limit, offset or range state appears. *)
Theorem raw_query_request q0 sqlText data store :
  sqlText ≠ "" →
  let q := Raw q0 sqlText in
  let sent :=
    Some {| req_Method := "POST";
            req_URL := baseURL (client q0) +:+ "/rest/v1/rpc/execute_sql";
            req_Header := headers q0;
            req_QueryParam := ∅;
            req_Body := Some (DSqlRequest sqlText) |} in
  out_request (Get roundTrip q data store) = sent ∧
  out_request (First roundTrip q data store) = sent ∧
  out_request (Insert roundTrip q data store) = sent ∧
  out_request (Update roundTrip q data store) = sent ∧
  out_request (Delete roundTrip q store) = sent.
Proof.
  intros Hraw q sent. subst q sent.
  unfold Get, First, Insert, Update, Delete.
  repeat split; by rewrite execute_request_raw.
Qed.

(** C10: with a raw query, what [json.Unmarshal] receives is the
    [sqlRequest] value built by [execute], never the argument of [Get]
    or [First]; the caller's containers are the same after the call,
    whatever the server answered, a success included. *)
Theorem raw_query_leaves_result q0 sqlText result store :
  sqlText ≠ "" →
  let q := Raw q0 sqlText in
  (out_store (Get roundTrip q result store) = store ∧
   out_store (First roundTrip q result store) = store) ∧
  (out_decoded_into (Get roundTrip q result store)
     ∈ [None; Some (DSqlRequest sqlText)] ∧
   out_decoded_into (First roundTrip q result store)
     ∈ [None; Some (DSqlRequest sqlText)]) ∧
  (∀ r resp,
     out_request (Get roundTrip q result store) = Some r →
     roundTrip r store = inr resp →
     IsError resp = false →
     out_decoded_into (Get roundTrip q result store)
       = Some (DSqlRequest sqlText) ∧
     out_store (Get roundTrip q result store) = store).
Proof.
  intros Hraw q. subst q. unfold Get, First.
  assert (Hq : ∀ q1 : QueryBuilder, rawQuery q1 = sqlText →
            out_store (execute roundTrip q1 result store) = store ∧
            out_decoded_into (execute roundTrip q1 result store)
              ∈ [None; Some (DSqlRequest sqlText)]).
  { intros q1 Hq1. rewrite execute_raw by (by rewrite Hq1).
    rewrite Hq1. destruct (roundTrip _ store) as [err|resp].
    - split; [done | by left].
    - destruct (IsError resp); (split; [done|]); [by left | right; by left]. }
  destruct (Hq (Raw q0 sqlText) eq_refl) as [Hs Hd].
  destruct (Hq (Limit (Raw q0 sqlText) 1) eq_refl) as [Hs' Hd'].
  split; [done|]. split; [done|].
  intros r resp Hreq Hrt Herr.
  rewrite execute_request_raw in Hreq by done. injection Hreq as <-.
  rewrite execute_raw by done. cbv zeta.
  cbn [Raw set_rawQuery rawQuery headers client] in *.
  by rewrite Hrt, Herr.
Qed.


End Compilation.

(** ** The transaction stub *)

(** C9: [Commit] returns no error and [Rollback] returns the error saying
    that rollback is not supported, for every transaction; both results are
    constants, so nothing done before has a part in them. *)
Theorem Commit_succeeds_Rollback_fails (t : Transaction) :
  Commit t = None ∧
  Rollback t
  = Some (Errorf "rollback not supported in the current Supabase REST API") ∧
  (∀ t' : Transaction, Commit t' = Commit t ∧ Rollback t' = Rollback t).
Proof. by repeat split. Qed.

(** ** [ParseContentRange] *)

Lemma has_byte_app (c : ascii) (a b : string) :
  has_byte c (a +:+ b) = has_byte c a || has_byte c b.
Proof.
  induction a as [|x a IH]; [done|].
  rewrite append_cons. simpl. by rewrite IH, orb_assoc.
Qed.

Lemma strings_Split_length (s : string) (sep : ascii) :
  length (strings_Split s sep) = S (count_byte sep s).
Proof.
  induction s as [|a s IH]; [done|]. simpl.
  destruct (Ascii.eqb a sep); simpl; [by rewrite IH|].
  destruct (strings_Split s sep) as [|piece pieces]; [done|]. exact IH.
Qed.

Lemma strings_Split_absent (s : string) (sep : ascii) :
  has_byte sep s = false → strings_Split s sep = [s].
Proof.
  induction s as [|a s IH]; [done|]. simpl.
  destruct (Ascii.eqb a sep); [done|]. simpl. intros Hs. by rewrite IH.
Qed.

Lemma strings_Split_at (a b : string) (sep : ascii) :
  has_byte sep a = false →
  strings_Split (a +:+ String sep b) sep = a :: strings_Split b sep.
Proof.
  induction a as [|x a IH]; intros Ha.
  - rewrite append_nil_l. simpl. by rewrite Ascii.eqb_refl.
  - rewrite append_cons. simpl in *.
    destruct (Ascii.eqb x sep); [done|]. simpl in Ha. by rewrite IH.
Qed.

Lemma count_byte_absent (s : string) (sep : ascii) :
  has_byte sep s = false → count_byte sep s = O.
Proof.
  induction s as [|a s IH]; [done|]. simpl.
  destruct (Ascii.eqb a sep); [done|]. simpl. exact IH.
Qed.

(** The digits of a number hold no byte that is not a digit. *)
Lemma digits_has_byte (c : ascii) (d : Decimal.uint) :
  Ascii.is_nat c = None → has_byte c (NilZero.string_of_uint d) = false.
Proof.
  intros Hc.
  assert (Hd : ∀ x, Ascii.is_nat x ≠ None → Ascii.eqb x c = false).
  { intros x Hx. destruct (Ascii.eqb_spec x c) as [->|]; [done|done]. }
  assert (Hne : has_byte c (NilEmpty.string_of_uint d) = false).
  { induction d; cbn [NilEmpty.string_of_uint has_byte];
      rewrite ?IHd, ?Hd; done. }
  destruct d; try exact Hne.
  cbn [NilZero.string_of_uint has_byte]. by rewrite Hd.
Qed.

Lemma FormatInt_has_byte (c : ascii) (n : Z) :
  Ascii.is_nat c = None → c ≠ "-"%char →
  has_byte c (strconv_FormatInt n) = false.
Proof.
  intros Hc Hminus. unfold strconv_FormatInt.
  destruct n as [|p|p].
  - by apply (digits_has_byte c (Decimal.D0 Decimal.Nil)).
  - by apply digits_has_byte.
  - change (NilZero.string_of_int (Z.to_int (Z.neg p)))
      with (String "-" (NilZero.string_of_uint (Pos.to_uint p))).
    cbn [has_byte]. rewrite digits_has_byte by done.
    destruct (Ascii.eqb_spec "-" c) as [<-|]; done.
Qed.

Lemma FormatInt_nonneg_has_byte (c : ascii) (n : Z) :
  Ascii.is_nat c = None → 0 ≤ n → has_byte c (strconv_FormatInt n) = false.
Proof.
  intros Hc Hn. unfold strconv_FormatInt.
  destruct n as [|p|p]; [|by apply digits_has_byte|lia].
  by apply (digits_has_byte c (Decimal.D0 Decimal.Nil)).
Qed.

Lemma of_uint_to_uint (p : positive) : Z.of_uint (Pos.to_uint p) = Z.pos p.
Proof. exact (DecimalZ.of_to (Z.pos p)). Qed.

Lemma to_uint_not_Nil (p : positive) : Pos.to_uint p ≠ Decimal.Nil.
Proof.
  intros Heq. pose proof (of_uint_to_uint p) as Hp. by rewrite Heq in Hp.
Qed.

Lemma Atoi_digits (p : positive) :
  Z.pos p ≤ MaxInt →
  strconv_Atoi (NilZero.string_of_uint (Pos.to_uint p)) = (Z.pos p, false).
Proof.
  intros Hp. unfold strconv_Atoi.
  pose proof (NilZero.usu _ (to_uint_not_Nil p)) as Husu.
  pose proof (digits_has_byte "+" (Pos.to_uint p) eq_refl) as Hplus.
  pose proof (digits_has_byte "-" (Pos.to_uint p) eq_refl) as Hminus.
  destruct (NilZero.string_of_uint (Pos.to_uint p)) as [|a rest] eqn:Hs;
    [done|].
  cbn [has_byte] in Hplus, Hminus.
  apply orb_false_iff in Hplus as [-> _].
  apply orb_false_iff in Hminus as [-> _].
  rewrite Husu, of_uint_to_uint. cbn [negb andb].
  by rewrite bool_decide_eq_false_2 by lia.
Qed.

(** [Atoi] reads back what [FormatInt] writes, for every 64-bit integer. *)
Lemma Atoi_FormatInt (n : Z) :
  MinInt ≤ n ≤ MaxInt → strconv_Atoi (strconv_FormatInt n) = (n, false).
Proof.
  intros [Hmin Hmax]. unfold strconv_FormatInt.
  destruct n as [|p|p]; [done | by apply Atoi_digits |].
  change (NilZero.string_of_int (Z.to_int (Z.neg p)))
    with (String "-" (NilZero.string_of_uint (Pos.to_uint p))).
  unfold strconv_Atoi.
  change (Ascii.eqb "-" "+") with false. change (Ascii.eqb "-" "-") with true.
  cbv iota beta.
  rewrite (NilZero.usu _ (to_uint_not_Nil p)), of_uint_to_uint.
  cbn [negb andb].
  rewrite bool_decide_eq_false_2; [done|]. unfold MinInt in *. lia.
Qed.

Lemma TrimPrefix_items (s : string) :
  strings_TrimPrefix ("items " +:+ s) "items " = s.
Proof. reflexivity. Qed.

Lemma TrimPrefix_FormatInt (n : Z) :
  strings_TrimPrefix (strconv_FormatInt n) "items " = strconv_FormatInt n.
Proof.
  assert (Hi : has_byte "i" (strconv_FormatInt n) = false)
    by (by apply FormatInt_has_byte).
  unfold strings_TrimPrefix.
  destruct (strconv_FormatInt n) as [|a rest]; [done|].
  cbn [has_byte] in Hi. apply orb_false_iff in Hi as [Ha _].
  cbn [cut_prefix]. by rewrite Ha.
Qed.

(** X1: a text that does not hold exactly one [/] parses to three zeros. *)
Theorem ParseContentRange_slashes (contentRange : string) :
  count_byte "/" contentRange ≠ 1%nat →
  ParseContentRange contentRange = (0, 0, 0).
Proof.
  intros Hcount. unfold ParseContentRange.
  pose proof (strings_Split_length contentRange "/") as Hlen.
  destruct (strings_Split contentRange "/") as [|p0 [|p1 [|p2 rest]]];
    try done.
  simpl in Hlen. congruence.
Qed.

(** X2: with one [/], a part before it that does not hold exactly one [-]
    gives zero for start and end, and the total is still read from the part
    after the [/]. *)
Theorem ParseContentRange_total_only (range_part total_part : string) :
  has_byte "/" range_part = false →
  has_byte "/" total_part = false →
  count_byte "-" range_part ≠ 1%nat →
  ParseContentRange (range_part +:+ "/" +:+ total_part)
  = (0, 0, (strconv_Atoi total_part).1).
Proof.
  intros Hr Ht Hcount. unfold ParseContentRange.
  change ("/" +:+ total_part) with (String "/" total_part).
  rewrite strings_Split_at, strings_Split_absent by done.
  pose proof (strings_Split_length range_part "-") as Hlen.
  destruct (strings_Split range_part "-") as [|p0 [|p1 [|p2 rest]]];
    try done.
  simpl in Hlen. congruence.
Qed.

(** X3: the values come back from the text the server writes them in,
    [items <start>-<end>/<total>] or the same without [items ], for every
    start and end from 0 to the largest [int] and every total that is an
    [int]. *)
Theorem ParseContentRange_round_trip (with_items : bool) (start end_ total : Z) :
  0 ≤ start ≤ MaxInt → 0 ≤ end_ ≤ MaxInt → MinInt ≤ total ≤ MaxInt →
  ParseContentRange
    ((if with_items then "items " else "") +:+ strconv_FormatInt start +:+ "-"
       +:+ strconv_FormatInt end_ +:+ "/" +:+ strconv_FormatInt total)
  = (start, end_, total).
Proof.
  intros Hs He Ht.
  set (prefix := if with_items then "items " else "").
  assert (Hprefix : ∀ c, c ≠ "i"%char → c ≠ "t"%char → c ≠ "e"%char →
            c ≠ "m"%char → c ≠ "s"%char → c ≠ " "%char →
            has_byte c prefix = false).
  { intros c ??????. subst prefix. destruct with_items; [|done].
    cbn [has_byte].
    repeat match goal with
           | |- context [Ascii.eqb ?x c] =>
               destruct (Ascii.eqb_spec x c) as [<-|_]; [done|]
           end.
    done. }
  set (F := strconv_FormatInt).
  assert (Hshape :
    prefix +:+ F start +:+ "-" +:+ F end_ +:+ "/" +:+ F total
    = ((prefix +:+ F start) +:+ String "-" (F end_)) +:+ String "/" (F total))
    by (by rewrite !append_assoc).
  rewrite Hshape. clear Hshape. subst F.
  unfold ParseContentRange.
  rewrite strings_Split_at.
  2:{ rewrite has_byte_app. cbn [has_byte].
      rewrite has_byte_app, Hprefix by done.
      by rewrite !FormatInt_nonneg_has_byte by (done || lia). }
  rewrite strings_Split_absent by (by apply FormatInt_has_byte).
  rewrite strings_Split_at.
  2:{ rewrite has_byte_app, Hprefix by done.
      by rewrite FormatInt_nonneg_has_byte by (done || lia). }
  rewrite strings_Split_absent
    by (apply FormatInt_nonneg_has_byte; [done | lia]).
  assert (Hstart : strings_TrimPrefix (prefix +:+ strconv_FormatInt start)
                     "items " = strconv_FormatInt start).
  { subst prefix. destruct with_items.
    - apply TrimPrefix_items.
    - rewrite append_nil_l. apply TrimPrefix_FormatInt. }
  rewrite Hstart.
  rewrite !Atoi_FormatInt; [done | lia | unfold MinInt; lia | unfold MinInt; lia].
Qed.

(** ** More on [execute] *)

Section Dispatch.
Context `{GoStd}.
Variable roundTrip : Request -> gmap nat Obj -> error + Response.

(** The whole outcome of [execute] without a raw query, for a method the
    switch knows. *)
Lemma execute_normal q data store :
  rawQuery q = "" →
  supported (method q) →
  let r := {| req_Method := method q;
              req_URL := baseURL (client q) +:+ "/rest/v1/" +:+ tableName q;
              req_Header :=
                match rangeValue q with
                | Some rg =>
                    <["Range" := fmt_d (range_start rg) +:+ "-"
                                   +:+ fmt_d (range_end rg)]> (headers q)
                | None => headers q
                end;
              req_QueryParam := queryParams q;
              req_Body :=
                if bool_decide (method q = MethodPost)
                   || bool_decide (method q = MethodPatch)
                then Some data else None |} in
  execute roundTrip q data store
  = match roundTrip r store with
    | inl err =>
        {| out_builder := q; out_request := Some r; out_decoded_into := None;
           out_store := store; out_err := Some err |}
    | inr resp =>
        if IsError resp then
          {| out_builder := q; out_request := Some r;
             out_decoded_into := None; out_store := store;
             out_err :=
               Some (Errorf ("API error: " +:+ Response_String resp)) |}
        else if (bool_decide (method q = MethodGet)
                 || bool_decide (method q = MethodPost)) && not_nil data then
          {| out_builder := q; out_request := Some r;
             out_decoded_into := Some data;
             out_store := (json_Unmarshal (resp_Body resp) data store).2;
             out_err := (json_Unmarshal (resp_Body resp) data store).1 |}
        else
          {| out_builder := q; out_request := Some r;
             out_decoded_into := None; out_store := store; out_err := None |}
    end.
Proof.
  intros Hraw Hm. cbv zeta. unfold execute.
  rewrite (bool_decide_eq_false_2 (rawQuery q ≠ "")) by (by intros []).
  rewrite (bool_decide_eq_true_2 (rawQuery q = "")) by done.
  unfold supported in Hm. rewrite !elem_of_cons, elem_of_nil in Hm.
  destruct Hm as [Hm|[Hm|[Hm|[Hm|[]]]]]; rewrite Hm;
    unfold MethodGet, MethodPost, MethodPatch, MethodDelete;
    repeat case_bool_decide; try done; cbn [andb orb];
    (destruct (roundTrip _ store) as [err|resp]; [done|]);
    (destruct (IsError resp); [done|]);
    destruct (not_nil data); try done;
    by destruct (json_Unmarshal _ _ _).
Qed.

Lemma execute_unsupported q data store :
  rawQuery q = "" →
  ¬ supported (method q) →
  execute roundTrip q data store
  = {| out_builder := q; out_request := None; out_decoded_into := None;
       out_store := store;
       out_err := Some (Errorf ("unsupported HTTP method: " +:+ method q)) |}.
Proof.
  intros Hraw Hm. unfold execute.
  rewrite (bool_decide_eq_false_2 (rawQuery q ≠ "")) by (by intros []).
  unfold supported in Hm. rewrite !elem_of_cons, elem_of_nil in Hm.
  repeat case_bool_decide; try done; exfalso; apply Hm; tauto.
Qed.

Lemma execute_issues q data store :
  rawQuery q ≠ "" ∨ supported (method q) →
  is_Some (out_request (execute roundTrip q data store)).
Proof.
  intros Hq. destruct (decide (rawQuery q = "")) as [Hraw|Hraw].
  - destruct Hq as [?|Hm]; [done|].
    rewrite execute_normal by done. cbv zeta.
    destruct (roundTrip _ store) as [err|resp]; [by eexists|].
    destruct (IsError resp); [by eexists|].
    by destruct (_ && _); eexists.
  - rewrite execute_request_raw by done. by eexists.
Qed.

(** X4: with a raw query no terminal operation ever returns nil: a failed
    request returns its error, and an answered one returns the error of
    decoding into a value that is not a pointer. *)
Theorem raw_query_always_errors q0 sqlText data store :
  sqlText ≠ "" →
  let q := Raw q0 sqlText in
  is_Some (out_err (Get roundTrip q data store)) ∧
  is_Some (out_err (First roundTrip q data store)) ∧
  is_Some (out_err (Insert roundTrip q data store)) ∧
  is_Some (out_err (Update roundTrip q data store)) ∧
  is_Some (out_err (Delete roundTrip q store)) ∧
  is_Some (Count roundTrip q store).1.2.
Proof.
  intros Hraw q. subst q.
  assert (Herr : ∀ (q1 : QueryBuilder) d,
            rawQuery q1 = sqlText →
            is_Some (out_err (execute roundTrip q1 d store))).
  { intros q1 d Hq1. rewrite execute_raw by (by rewrite Hq1).
    destruct (roundTrip _ store) as [err|resp]; [by eexists|].
    by destruct (IsError resp); eexists. }
  unfold Get, First, Insert, Update, Delete, Count.
  repeat split; try (by apply Herr).
  destruct (Herr (Header (Raw q0 sqlText) "Prefer" "count=exact")
              DRawMessage eq_refl) as [e He].
  rewrite He. by eexists.
Qed.

(** X5: without a raw query a request is issued exactly when the builder's
    method is GET, POST, PATCH or DELETE; for any other method [execute]
    returns the unsupported-method error naming it, sends nothing and
    leaves the caller's containers alone. *)
Theorem request_issued_iff_supported q data store :
  rawQuery q = "" →
  (is_Some (out_request (execute roundTrip q data store))
   ↔ method q ∈ ["GET"; "POST"; "PATCH"; "DELETE"]) ∧
  (method q ∉ ["GET"; "POST"; "PATCH"; "DELETE"] →
   out_err (execute roundTrip q data store)
   = Some (Errorf ("unsupported HTTP method: " +:+ method q)) ∧
   out_store (execute roundTrip q data store) = store).
Proof.
  intros Hraw. split.
  - split.
    + intros Hsome. destruct (decide (supported (method q))) as [|Hno]; [done|].
      rewrite execute_unsupported in Hsome by done. by destruct Hsome.
    + intros Hm. apply execute_issues. by right.
  - intros Hm. by rewrite execute_unsupported.
Qed.

Lemma call_keeps (q : QueryBuilder) (s : setter) :
  method (call q s) = method q ∧ client (call q s) = client q ∧
  tableName (call q s) = tableName q.
Proof. by destruct s. Qed.

Lemma chain_keeps (q : QueryBuilder) (calls : list setter) :
  method (chain q calls) = method q ∧ client (chain q calls) = client q ∧
  tableName (chain q calls) = tableName q.
Proof.
  unfold chain. revert q. induction calls as [|s calls IH]; intros q; [done|].
  simpl. destruct (IH (call q s)) as (-> & -> & ->). apply call_keeps.
Qed.

(** X6: no chain of setter calls changes the method, the client or the
    table name; so a builder made by [Table], or by a transaction's
    [Table], and configured by any setters has method GET, and [Get],
    [First] and [Count] on it always issue a request. *)
Theorem chained_builder_issues_request q0 calls result store :
  let q := chain q0 calls in
  (method q = method q0 ∧ client q = client q0 ∧ tableName q = tableName q0) ∧
  ((∃ c t, q0 = Table c t) ∨ (∃ tx t, q0 = Transaction_Table tx t) →
   method q = "GET" ∧
   is_Some (out_request (Get roundTrip q result store)) ∧
   is_Some (out_request (First roundTrip q result store)) ∧
   is_Some (out_request (Count roundTrip q store).2)).
Proof.
  cbv zeta. split; [apply chain_keeps|].
  intros Hq0.
  assert (Hm : method (chain q0 calls) = "GET").
  { destruct (chain_keeps q0 calls) as (-> & _).
    by destruct Hq0 as [(c & t & ->)|(tx & t & ->)]. }
  assert (Hs : supported "GET") by (unfold supported; by left).
  split; [done|]. unfold Get, First, Count.
  repeat split.
  - apply execute_issues. right. by rewrite Hm.
  - apply execute_issues. right. cbn [Limit set_limitValue method].
    by rewrite Hm.
  - destruct (out_err _); cbn [snd];
      apply execute_issues; right; cbn [Header set_headers method];
      by rewrite Hm.
Qed.



End Dispatch.

(** ** More on the compiled request *)

Section CompiledRequest.
Context `{GoStd}.
Variable roundTrip : Request -> gmap nat Obj -> error + Response.

Lemma queryParams_order q :
  queryParams q !! "order"
  = if nonempty (orderFields q) then
      Some [strings_Join
              (map (λ o, order_column o +:+ "." +:+ direction o)
                   (orderFields q)) ","]
    else None.
Proof.
  unfold queryParams, Values.Set_.
  repeat case_bool_decide;
    destruct (nonempty (orderFields q)), (nonempty (joins q)),
      (nonempty (selectFields q));
    rewrite ?lookup_insert_ne by done; rewrite ?lookup_insert_eq; try done;
    rewrite fold_add_filter_other by done;
    rewrite ?lookup_insert_ne by done; apply lookup_empty.
Qed.


(** The request [execute] issues without a raw query, for a method the
    switch knows. *)
Lemma execute_normal_request q data store :
  rawQuery q = "" →
  supported (method q) →
  out_request (execute roundTrip q data store)
  = Some {| req_Method := method q;
            req_URL := baseURL (client q) +:+ "/rest/v1/" +:+ tableName q;
            req_Header :=
              match rangeValue q with
              | Some rg =>
                  <["Range" := fmt_d (range_start rg) +:+ "-"
                                 +:+ fmt_d (range_end rg)]> (headers q)
              | None => headers q
              end;
            req_QueryParam := queryParams q;
            req_Body :=
              if bool_decide (method q = MethodPost)
                 || bool_decide (method q = MethodPatch)
              then Some data else None |}.
Proof.
  intros Hraw Hm. rewrite execute_normal by done. cbv zeta.
  destruct (roundTrip _ store) as [err|resp]; [done|].
  destruct (IsError resp); [done|]. by destruct (_ && _).
Qed.

Lemma execute_normal_builder q data store :
  rawQuery q = "" → out_builder (execute roundTrip q data store) = q.
Proof.
  intros Hraw. destruct (decide (supported (method q))) as [Hm|Hm].
  - rewrite execute_normal by done. cbv zeta.
    destruct (roundTrip _ store) as [err|resp]; [done|].
    destruct (IsError resp); [done|]. by destruct (_ && _).
  - by rewrite execute_unsupported.
Qed.

(** X9: whatever the builder, the argument and the server, [execute]
    changes no container other than the one its argument points to. *)
Theorem execute_writes_only_its_target q data store l :
  data ≠ DPtr l →
  out_store (execute roundTrip q data store) !! l = store !! l.
Proof.
  intros Hdata.
  assert (Hjson : ∀ body, (json_Unmarshal body data store).2 !! l = store !! l).
  { intros body. unfold json_Unmarshal.
    destruct (json_checkValid body); [done|].
    destruct data as [|l0| | |]; try done.
    destruct (store !! l0); [|done].
    destruct (json_decode body o) as [e o']. cbn [snd].
    apply lookup_insert_ne. congruence. }
  destruct (decide (rawQuery q = "")) as [Hraw|Hraw].
  - destruct (decide (supported (method q))) as [Hm|Hm].
    + rewrite execute_normal by done. cbv zeta.
      destruct (roundTrip _ store) as [err|resp]; [done|].
      destruct (IsError resp); [done|]. destruct (_ && _); [|done].
      apply Hjson.
    + by rewrite execute_unsupported.
  - rewrite execute_raw by done. cbv zeta.
    destruct (roundTrip _ store) as [err|resp]; [done|].
    by destruct (IsError resp).
Qed.

(** X10: on a GET or POST without a raw query, an answer with a status
    below 400 is decoded into the container the argument points to: bad
    JSON returns the syntax error and leaves the container as it was,
    valid JSON stores what the decoder produced and returns the decoder's
    error, if any. *)
Theorem answer_decoded_into_pointer q l o store r resp :
  rawQuery q = "" →
  method q ∈ ["GET"; "POST"] →
  store !! l = Some o →
  out_request (execute roundTrip q (DPtr l) store) = Some r →
  roundTrip r store = inr resp →
  StatusCode resp ≤ 399 →
  let out := execute roundTrip q (DPtr l) store in
  out_decoded_into out = Some (DPtr l) ∧
  match json_checkValid (resp_Body resp) with
  | Some msg => out_err out = Some (SyntaxError msg) ∧ out_store out = store
  | None =>
      out_err out = DecodeError <$> (json_decode (resp_Body resp) o).1 ∧
      out_store out = <[l := (json_decode (resp_Body resp) o).2]> store
  end.
Proof.
  intros Hraw Hm Ho Hreq Hresp Hstatus.
  assert (Hsup : supported (method q)).
  { unfold supported. revert Hm. rewrite !elem_of_cons, !elem_of_nil.
    unfold MethodGet, MethodPost. tauto. }
  rewrite execute_normal_request in Hreq by done. injection Hreq as <-.
  cbv zeta. rewrite execute_normal by done. cbv zeta. rewrite Hresp.
  assert (Hcond : bool_decide (method q = MethodGet)
                  || bool_decide (method q = MethodPost) = true).
  { revert Hm. rewrite !elem_of_cons, elem_of_nil.
    intros [->|[->|[]]]; done. }
  unfold IsError. rewrite (bool_decide_eq_false_2 (399 < StatusCode resp)) by lia.
  rewrite Hcond. cbn [andb not_nil out_decoded_into out_err out_store].
  split; [done|]. unfold json_Unmarshal.
  destruct (json_checkValid (resp_Body resp)); [done|].
  rewrite Ho. by destruct (json_decode (resp_Body resp) o).
Qed.

(** X11: without a raw query the request carries [order] exactly when the
    builder has order clauses: one parameter, the clauses as
    [<column>.<direction>] joined by commas in the order of the [Order]
    calls, each direction as it was passed. *)
Theorem order_parameter q column dir data store r :
  rawQuery q = "" →
  (out_request (execute roundTrip q data store) = Some r →
   req_QueryParam r !! "order"
   = if nonempty (orderFields q) then
       Some [strings_Join
               (map (λ o, order_column o +:+ "." +:+ direction o)
                    (orderFields q)) ","]
     else None) ∧
  (out_request (execute roundTrip (Order q column dir) data store) = Some r →
   req_QueryParam r !! "order"
   = Some [strings_Join
             (map (λ o, order_column o +:+ "." +:+ direction o)
                  (orderFields q) ++ [column +:+ "." +:+ dir]) ","]).
Proof.
  intros Hraw. split; intros Hreq.
  - apply execute_request_normal in Hreq as (_ & _ & -> & _); [|done].
    apply queryParams_order.
  - apply execute_request_normal in Hreq as (_ & _ & -> & _); [|done].
    rewrite queryParams_order. cbn [Order set_orderFields orderFields].
    replace (nonempty (orderFields q ++ [_])) with true
      by (symmetry; apply nonempty_true; by destruct (orderFields q)).
    by rewrite map_app.
Qed.



(** X14: a condition added by [WhereRaw] is put under [and] exactly as it
    was passed, after the texts of the filters added before it. *)
Theorem raw_condition_verbatim q condition data store r :
  rawQuery q = "" →
  out_request (execute roundTrip (WhereRaw q condition) data store) = Some r →
  req_QueryParam r !! "and"
  = Some (map filter_text (filters q) ++ [condition]).
Proof.
  intros Hraw Hreq.
  apply execute_request_normal in Hreq as (_ & _ & -> & _); [|done].
  rewrite queryParams_and. cbn [WhereRaw set_filters filters].
  replace (nonempty (filters q ++ [_])) with true
    by (symmetry; apply nonempty_true; by destruct (filters q)).
  by rewrite map_app.
Qed.

(** X15: [First] asks for one row whatever limit was set before, and the
    builder keeps that limit afterwards. *)
Theorem first_limits_to_one q result store r :
  rawQuery q = "" →
  out_request (First roundTrip q result store) = Some r →
  req_QueryParam r !! "limit" = Some ["1"] ∧
  limitValue (out_builder (First roundTrip q result store)) = 1.
Proof.
  intros Hraw Hreq. unfold First in *.
  apply execute_request_normal in Hreq as (_ & _ & -> & _); [|done].
  rewrite queryParams_limit. rewrite execute_normal_builder by done.
  by cbn [Limit set_limitValue limitValue].
Qed.


(** X17: the builder has one [Prefer] value.  A transaction's builder
    sends [tx=commit]; after [LeftJoin] it sends [missing=null] instead,
    and [Count] on it sends [count=exact] instead. *)
Theorem prefer_header_is_replaced tx name ft lc fc result store :
  let q := Transaction_Table tx name in
  (∃ r, out_request (Get roundTrip q result store) = Some r ∧
        req_Header r !! "Prefer" = Some "tx=commit") ∧
  (∃ r, out_request (Get roundTrip (LeftJoin q ft lc fc) result store) = Some r ∧
        req_Header r !! "Prefer" = Some "missing=null") ∧
  (∃ r, out_request (Count roundTrip q store).2 = Some r ∧
        req_Header r !! "Prefer" = Some "count=exact").
Proof.
  cbv zeta.
  assert (Hsup : supported "GET") by (unfold supported; by left).
  unfold Get, Count. repeat split.
  - eexists. split; [by apply execute_normal_request|]. done.
  - eexists. split; [by apply execute_normal_request|]. done.
  - destruct (out_err _); cbn [snd];
      (eexists; split; [by apply execute_normal_request|]; done).
Qed.

(** X18: without a raw query, [Insert] issues a POST and [Update] a PATCH,
    both with the argument as the body, and [Delete] a DELETE without a
    body, each to [<base>/rest/v1/<table>] with the builder's query
    parameters and headers; the method the builder had before plays no
    part. *)
Theorem terminal_requests q data store :
  rawQuery q = "" →
  let request m body :=
    Some {| req_Method := m;
            req_URL := baseURL (client q) +:+ "/rest/v1/" +:+ tableName q;
            req_Header :=
              match rangeValue q with
              | Some rg =>
                  <["Range" := fmt_d (range_start rg) +:+ "-"
                                 +:+ fmt_d (range_end rg)]> (headers q)
              | None => headers q
              end;
            req_QueryParam := queryParams q;
            req_Body := body |} in
  out_request (Insert roundTrip q data store) = request "POST" (Some data) ∧
  out_request (Update roundTrip q data store) = request "PATCH" (Some data) ∧
  out_request (Delete roundTrip q store) = request "DELETE" None.
Proof.
  intros Hraw. cbv zeta. unfold Insert, Update, Delete.
  repeat split;
    (rewrite execute_normal_request;
     [done | done | unfold supported; cbn [set_method method];
                    rewrite !elem_of_cons; tauto]).
Qed.

End CompiledRequest.

(** ** More on the filter helpers and the response wrapper *)

Section FormatterMore.
Context `{GoStd}.

(** X19: a collection of strings formats the same through either branch of
    the collection case: as a slice of strings, or as a slice of values
    that each hold a string. *)
Theorem FormatFilterValue_strings_agree (l : list string) :
  FormatFilterValue (VStrings l) = FormatFilterValue (VSlice (map VString l)).
Proof.
  cbn [FormatFilterValue]. do 2 f_equal.
  induction l as [|s l IH]; [done|]. cbn [map]. by rewrite IH.
Qed.

(** X20: quotes inside a string are not escaped, so one element holding a
    quote, a comma and a quote formats exactly like two elements. *)
Theorem FormatFilterValue_quotes_not_escaped (a b : string) :
  FormatFilterValue (VStrings [a +:+ dquote +:+ "," +:+ dquote +:+ b])
  = FormatFilterValue (VStrings [a; b]) ∧
  FormatFilterValue (VString (a +:+ dquote +:+ b))
  = dquote +:+ a +:+ dquote +:+ b +:+ dquote.
Proof.
  cbn [FormatFilterValue map strings_Join]. unfold braces, quote.
  split; by rewrite !append_assoc.
Qed.

(** X21: [BuildFilterCondition] treats a token and its keyword alike:
    replacing the operator by the keyword of the operator table gives the
    same condition. *)
Theorem BuildFilterCondition_alias (column operator : string) (value : any) :
  BuildFilterCondition column operator value
  = BuildFilterCondition column (canonical_keyword operator) value.
Proof.
  destruct (decide (operator ∈ operator_table.*1)) as [Hin|Hnot].
  - unfold operator_table in Hin. simpl in Hin.
    repeat (apply elem_of_cons in Hin as [->|Hin]; [reflexivity|]).
    by apply elem_of_nil in Hin.
  - by rewrite canonical_keyword_unlisted.
Qed.

End FormatterMore.

(** X22: the wrapper of a failed call reports an error and holds no status,
    header or body; the wrapper of an answer reports an error exactly from
    status 400 on, and keeps for each header name the first of its values,
    dropping a name that has none. *)
Theorem wrapper_response (resp : Wrapper.RestyResponse) (k : string) :
  (∀ e, Wrapper.IsError (Wrapper.NewResponse resp (Some e)) = true ∧
        Wrapper.StatusCode (Wrapper.NewResponse resp (Some e)) = 0 ∧
        Wrapper.Headers (Wrapper.NewResponse resp (Some e)) = ∅ ∧
        Wrapper.Body (Wrapper.NewResponse resp (Some e)) = "") ∧
  (Wrapper.IsError (Wrapper.NewResponse resp None) = true
   ↔ 400 ≤ Wrapper.resty_StatusCode resp) ∧
  (∀ v, Wrapper.Headers (Wrapper.NewResponse resp None) !! k = Some v
        ↔ ∃ more, Wrapper.resty_Header resp !! k = Some (v :: more)) ∧
  (Wrapper.resty_Header resp !! k = Some [] →
   Wrapper.Headers (Wrapper.NewResponse resp None) !! k = None).
Proof.
  split; [done|]. split; [|split].
  - unfold Wrapper.IsError. cbn. apply bool_decide_eq_true.
  - intros v. cbn. rewrite lookup_omap.
    destruct (Wrapper.resty_Header resp !! k) as [[|x more]|]; cbn.
    + split; [done | by intros [? ?]].
    + split; [intros [= ->]; by eexists | by intros [? [= -> _]]].
    + split; [done | by intros [? ?]].
  - intros Hk. cbn. by rewrite lookup_omap, Hk.
Qed.

(** ** Closed instances *)

#[local] Existing Instance sample_std.

Example select_where_compiles :
  let q := Where (Select (Table sample_client "x") ["a"; "b"])
                 "c" "eq" (VInt KInt 1) in
  queryParams q !! "select" = Some ["a,b"] ∧
  queryParams q !! "and" = Some ["c.eq.1"].
Proof. by vm_compute. Qed.

Example format_string_collection :
  @FormatFilterValue sample_std (VStrings ["a"; "b"])
  = "{" +:+ dquote +:+ "a" +:+ dquote +:+ "," +:+ dquote +:+ "b" +:+ dquote
        +:+ "}".
Proof. by vm_compute. Qed.

Example format_nested_integers :
  @FormatFilterValue sample_std
    (VSlice [VSlice [VInt KInt8 (-7); VUint KUint64 18446744073709551615];
             VSlice []; VBool true])
  = "{{-7,18446744073709551615},{},true}".
Proof. by vm_compute. Qed.

Example build_unknown_operator :
  @BuildFilterCondition sample_std "tags" "cs" (VInt KInt 3) = "tags=cs.3".
Proof. by vm_compute. Qed.

(** C7 on [users_query]: the limit of 10 is sent, the untouched offset is
    not. *)
Lemma limit_offset_witness :
  ∃ r, out_request (execute (ok_server "[]") users_query (DPtr 0) ∅) = Some r ∧
       req_QueryParam r !! "limit" = Some ["10"] ∧
       req_QueryParam r !! "offset" = None.
Proof.
  destruct (out_request (execute (ok_server "[]") users_query (DPtr 0) ∅))
    as [r|] eqn:Hreq; [|by vm_compute in Hreq].
  exists r. split; [done|].
  destruct (limit_offset_emitted_when_positive
              (ok_server "[]") users_query (DPtr 0) ∅ r eq_refl Hreq)
    as (_ & _ & Hlimit & _ & _ & Hoffset).
  split; [exact (Hlimit eq_refl) | exact (proj1 (Hoffset eq_refl))].
Defined.

(** C6 on [users_query]: both joins follow the selected columns, in the
    order of the calls. *)
Lemma joins_select_witness :
  ∃ r, out_request (execute (ok_server "[]") users_query (DPtr 0) ∅) = Some r ∧
       req_QueryParam r !! "select" = Some ["id,name,posts(*),comments(*)"].
Proof.
  destruct (out_request (execute (ok_server "[]") users_query (DPtr 0) ∅))
    as [r|] eqn:Hreq; [|by vm_compute in Hreq].
  exists r. split; [done|].
  refine (proj1 (joins_extend_select
                   (ok_server "[]") users_query (DPtr 0) ∅ r eq_refl _ Hreq)).
  discriminate.
Defined.



(** C3 on a builder that has select, filter, order, limit, offset and range
    state, and a custom header. *)
Lemma raw_query_request_witness :
  let q0 :=
    Header (Range (Offset (Order users_query "id" "desc") 20) 0 9)
           "X-Trace" "1" in
  let sent :=
    Some {| req_Method := "POST";
            req_URL := "https://example.supabase.co/rest/v1/rpc/execute_sql";
            req_Header := {["X-Trace" := "1"]};
            req_QueryParam := ∅;
            req_Body := Some (DSqlRequest "SELECT 1") |} in
  out_request (Get (ok_server "[]") (Raw q0 "SELECT 1") (DPtr 0) ∅) = sent ∧
  out_request (Update (ok_server "[]") (Raw q0 "SELECT 1") (DPtr 0) ∅) = sent ∧
  out_request (Delete (ok_server "[]") (Raw q0 "SELECT 1") ∅) = sent.
Proof.
  cbv zeta.
  destruct (raw_query_request (ok_server "[]")
              (Header (Range (Offset (Order users_query "id" "desc") 20) 0 9)
                      "X-Trace" "1")
              "SELECT 1" (DPtr 0) ∅) as (Hget & _ & _ & Hupdate & Hdelete);
    [discriminate|].
  split; [exact Hget|]. split; [exact Hupdate | exact Hdelete].
Defined.

(** C10 on a successful answer: the caller's container still holds what it
    held, although the same call without [Raw] overwrites it. *)
Lemma raw_query_leaves_result_witness :
  let store : gmap nat string := {[ 0%nat := "before" ]} in
  out_store (Get (ok_server "[1]") (Raw users_query "SELECT 1") (DPtr 0) store)
  = store ∧
  out_store (First (ok_server "[1]") (Raw users_query "SELECT 1") (DPtr 0) store)
  = store ∧
  out_store (Get (ok_server "[1]") users_query (DPtr 0) store)
  = {[ 0%nat := "[1]" ]}.
Proof.
  cbv zeta.
  destruct (raw_query_leaves_result (ok_server "[1]") users_query "SELECT 1"
              (DPtr 0) {[ 0%nat := "before" ]}) as ((Hget & Hfirst) & _);
    [discriminate|].
  split; [exact Hget|]. split; [exact Hfirst|]. by vm_compute.
Defined.

Example count_sets_prefer_header :
  let counted := Count (ok_server "[]") users_query ∅ in
  counted.1 = (0, None) ∧
  (out_request counted.2 ≫= λ r, req_Header r !! "Prefer")
  = Some "count=exact".
Proof. by vm_compute. Qed.

(** ** Closed instances of the further properties *)

Lemma ParseContentRange_slashes_witness : ParseContentRange "0-9" = (0, 0, 0).
Proof. apply ParseContentRange_slashes. by vm_compute. Defined.

Lemma ParseContentRange_total_only_witness :
  ParseContentRange "*/42" = (0, 0, 42).
Proof.
  refine (ParseContentRange_total_only "*" "42" eq_refl eq_refl _).
  by vm_compute.
Defined.

Lemma ParseContentRange_round_trip_witness :
  ParseContentRange "items 0-9/42" = (0, 9, 42).
Proof.
  refine (ParseContentRange_round_trip true 0 9 42 _ _ _);
    unfold MaxInt, MinInt; lia.
Defined.

Lemma raw_query_always_errors_witness :
  is_Some (out_err (Get (ok_server "[1]") (Raw users_query "SELECT 1")
                        (DPtr 0) {[ 0%nat := "before" ]})).
Proof.
  refine (proj1 (raw_query_always_errors (ok_server "[1]") users_query
                   "SELECT 1" (DPtr 0) {[ 0%nat := "before" ]} _)).
  discriminate.
Defined.

Lemma request_issued_iff_supported_witness :
  out_err (execute (ok_server "[]") (set_method users_query "PUT") DNil ∅)
  = Some (Errorf "unsupported HTTP method: PUT").
Proof.
  refine (proj1 (proj2 (request_issued_iff_supported (ok_server "[]")
                          (set_method users_query "PUT") DNil ∅ eq_refl) _)).
  cbn [set_method method]. rewrite !not_elem_of_cons.
  repeat split; try discriminate. apply not_elem_of_nil.
Defined.



Lemma execute_writes_only_its_target_witness :
  out_store (execute (ok_server "[1]") users_query (DPtr 0)
               {[ 0%nat := "a"; 1%nat := "b" ]}) !! 1%nat
  = Some "b".
Proof.
  refine (eq_trans (execute_writes_only_its_target (ok_server "[1]")
                      users_query (DPtr 0)
                      {[ 0%nat := "a"; 1%nat := "b" ]} 1%nat _) _).
  - discriminate.
  - by vm_compute.
Defined.

Lemma answer_decoded_into_pointer_witness :
  out_store (execute (ok_server "[1]") users_query (DPtr 0)
               {[ 0%nat := "before" ]})
  = {[ 0%nat := "[1]" ]}.
Proof.
  destruct (out_request (execute (ok_server "[1]") users_query (DPtr 0)
                           {[ 0%nat := "before" ]})) as [r|] eqn:Hreq;
    [|by vm_compute in Hreq].
  refine (eq_trans (proj2 (proj2 (answer_decoded_into_pointer (ok_server "[1]")
                      users_query 0%nat "before" {[ 0%nat := "before" ]}
                      r _ eq_refl _ eq_refl Hreq eq_refl _))) _).
  - rewrite !elem_of_cons. by left.
  - by vm_compute.
  - by vm_compute.
Defined.

Lemma order_parameter_witness :
  ∃ r, out_request (execute (ok_server "[]")
                      (Order (Order users_query "name" "asc") "id" "desc")
                      (DPtr 0) ∅) = Some r ∧
       req_QueryParam r !! "order" = Some ["name.asc,id.desc"].
Proof.
  destruct (out_request (execute (ok_server "[]")
                           (Order (Order users_query "name" "asc") "id" "desc")
                           (DPtr 0) ∅)) as [r|] eqn:Hreq;
    [|by vm_compute in Hreq].
  exists r. split; [done|].
  exact (proj2 (order_parameter (ok_server "[]")
                  (Order users_query "name" "asc") "id" "desc"
                  (DPtr 0) ∅ r eq_refl) Hreq).
Defined.



Lemma raw_condition_verbatim_witness :
  ∃ r, out_request (execute (ok_server "[]")
                      (WhereRaw users_query "or=(a.eq.1,b.eq.2)")
                      (DPtr 0) ∅) = Some r ∧
       req_QueryParam r !! "and" = Some ["age.gt.18"; "or=(a.eq.1,b.eq.2)"].
Proof.
  destruct (out_request (execute (ok_server "[]")
                           (WhereRaw users_query "or=(a.eq.1,b.eq.2)")
                           (DPtr 0) ∅)) as [r|] eqn:Hreq;
    [|by vm_compute in Hreq].
  exists r. split; [done|].
  exact (raw_condition_verbatim (ok_server "[]") users_query
           "or=(a.eq.1,b.eq.2)" (DPtr 0) ∅ r eq_refl Hreq).
Defined.

Lemma first_limits_to_one_witness :
  ∃ r, out_request (First (ok_server "[]") users_query (DPtr 0) ∅) = Some r ∧
       limitValue users_query = 10 ∧
       req_QueryParam r !! "limit" = Some ["1"].
Proof.
  destruct (out_request (First (ok_server "[]") users_query (DPtr 0) ∅))
    as [r|] eqn:Hreq; [|by vm_compute in Hreq].
  exists r. split; [done|]. split; [done|].
  exact (proj1 (first_limits_to_one (ok_server "[]") users_query (DPtr 0) ∅ r
                  eq_refl Hreq)).
Defined.


Lemma terminal_requests_witness :
  (req_Method <$> out_request (Insert (ok_server "[]") users_query (DPtr 0) ∅))
  = Some "POST" ∧
  (req_Body <$> out_request (Insert (ok_server "[]") users_query (DPtr 0) ∅))
  = Some (Some (DPtr 0)).
Proof.
  destruct (terminal_requests (ok_server "[]") users_query (DPtr 0) ∅ eq_refl)
    as (Hinsert & _ & _).
  rewrite Hinsert. by split.
Defined.
